(** * ChatWidget: the conversation state machine of the chat widget

    A shallow embedding of the [ChatWidget] component: the four
    [useState] cells of the component, its event handlers ([toggleChat],
    [handleSendMessage], [handleKeyPress], the input's [onChange]) and the
    continuation of [handleSendMessage] that runs when its request settles.

    The embedding works at the granularity of event-loop tasks.  React
    re-renders the component after every task that calls a setter, so each
    handler closes over the state left by the previous task; the functional
    updates [setMessages(prev => ...)] act on that same state.  One task is
    therefore one transition of [step].

    [step] describes the component while it is mounted.  Nothing in the
    page catches an error thrown while React renders, so a render that
    throws unmounts the component; [unmounts] says for which transitions
    that happens. *)

From Stdlib Require Import ZArith NArith String Ascii.
From Stdlib Require Import Floats.SpecFloat.
From stdpp Require Import base list option.

Set Warnings "-register-all".

(** ** JavaScript values the widget handles *)

Module JS.

Local Open Scope N_scope.

(** A JavaScript string is a sequence of UTF-16 code units. *)
Abbreviation jsstring := (list N).

(** String literals of the source are ASCII; each character is its own
    code unit. *)
Definition lit (s : string) : jsstring :=
  map N_of_ascii (list_ascii_of_string s).

(** ECMAScript [WhiteSpace]: TAB, VT, FF, SP, NBSP, ZWNBSP and the
    Unicode space separators. *)
Definition isWhiteSpace (c : N) : bool :=
  (c =? 0x0009) || (c =? 0x000B) || (c =? 0x000C) || (c =? 0x0020)
  || (c =? 0x00A0) || (c =? 0xFEFF) || (c =? 0x1680)
  || ((0x2000 <=? c) && (c <=? 0x200A))
  || (c =? 0x202F) || (c =? 0x205F) || (c =? 0x3000).

(** ECMAScript [LineTerminator]: LF, CR, LS, PS. *)
Definition isLineTerminator (c : N) : bool :=
  (c =? 0x000A) || (c =? 0x000D) || (c =? 0x2028) || (c =? 0x2029).

(** What [String.prototype.trim] strips from both ends. *)
Definition isStrWhiteSpaceChar (c : N) : bool :=
  isWhiteSpace c || isLineTerminator c.

Fixpoint trimStart (s : jsstring) : jsstring :=
  match s with
  | [] => []
  | c :: rest => if isStrWhiteSpaceChar c then trimStart rest else s
  end.

Definition trimEnd (s : jsstring) : jsstring :=
  rev (trimStart (rev s)).

(** [s.trim()] *)
Definition trim (s : jsstring) : jsstring := trimEnd (trimStart s).

(** [!s] for a string [s]: only the empty string is falsy. *)
Definition not_string (s : jsstring) : bool :=
  match s with [] => true | _ :: _ => false end.

(** A value produced by [JSON.parse] (what [response.json()] resolves to).
    An object is its list of properties; a lookup takes the first entry
    for a key. *)
Inductive json : Type :=
| JNull
| JBool (b : bool)
| JNumber (d : spec_float)
| JString (s : jsstring)
| JArray (items : list json)
| JObject (props : list (jsstring * json)).

(** The values a turn's [text] can hold: [undefined], or a value that is
    a string of the widget's own or came out of a response body. *)
Inductive value : Type :=
| Undefined
| Val (j : json).

(** Completion of an expression evaluated inside [try]: a value, or a
    throw (a rejected promise under [await] throws too). *)
Inductive completion (A : Type) : Type :=
| Normal (a : A)
| Throw.
Arguments Normal {A} a.
Arguments Throw {A}.

#[global] Instance completion_ret : MRet completion := @Normal.
#[global] Instance completion_bind : MBind completion :=
  fun A B k c => match c with Normal a => k a | Throw => Throw end.

Fixpoint getOwn (props : list (jsstring * json)) (key : jsstring)
  : value :=
  match props with
  | [] => Undefined
  | (k, v) :: rest => if decide (k = key) then Val v else getOwn rest key
  end.

(** [data.key] for a parsed [data] and a [key] that is neither an array
    index, ["length"], nor a member of a built-in prototype: reading a
    property of [null] throws a TypeError; an object yields its own
    property or [undefined]; arrays and primitives yield [undefined]. *)
Definition getProp (data : json) (key : jsstring) : completion value :=
  match data with
  | JNull => Throw
  | JObject props => Normal (getOwn props key)
  | JBool _ | JNumber _ | JString _ | JArray _ => Normal Undefined
  end.

End JS.

Import JS.

(** ** The component *)

Module ChatWidget.

Inductive Sender : Type := user | bot.

(** One entry of [messages]: [{ text, sender }]. *)
Record ChatTurn : Type := { text : value; sender : Sender }.

(** What is handed to [fetch]. [body] is the object given to
    [JSON.stringify], when there is one. *)
Record request : Type := {
  url : jsstring;
  method : jsstring;
  headers : list (jsstring * jsstring);
  body : option json
}.

(** How a request ends: [fetch] rejects, or it fulfils with a response.
    [fetch] fulfils whatever the status code. [payload] is what parsing
    the response body as JSON gives, [None] when [response.json()]
    rejects. *)
Record Response : Type := { status : Z; payload : option json }.

Inductive settled : Type :=
| Rejects
| Responds (response : Response).

(** A promise the page is waiting on. *)
Inductive pending : Type :=
| AwaitAnswer (userMessage : ChatTurn)
  (* [handleSendMessage] suspended inside its [try] block *)
| Unobserved.
  (* [fetch(".../health")]: nothing is attached to the promise *)

(** The four [useState] cells, then the page's side of the network: the
    promises not yet settled, oldest first, and every request issued so
    far, oldest first. *)
Record Widget : Type := {
  isOpen : bool;
  messages : list ChatTurn;
  inputValue : jsstring;
  isLoading : bool;
  inflight : list pending;
  sent : list request
}.

Definition greeting : ChatTurn :=
  {| text := Val (JString (lit "Hello! Ask me anything about SMIK."));
     sender := bot |}.

Definition fallback : ChatTurn :=
  {| text := Val (JString (lit "I'm waking up! Please try again in 10s."));
     sender := bot |}.

(** The state after mount. *)
Definition init : Widget :=
  {| isOpen := false; messages := [greeting]; inputValue := [];
     isLoading := false; inflight := []; sent := [] |}.

(** *** Setters *)

Definition setIsOpen (b : bool) (w : Widget) : Widget :=
  {| isOpen := b; messages := messages w; inputValue := inputValue w;
     isLoading := isLoading w; inflight := inflight w; sent := sent w |}.

Definition setMessages (f : list ChatTurn -> list ChatTurn) (w : Widget)
  : Widget :=
  {| isOpen := isOpen w; messages := f (messages w);
     inputValue := inputValue w; isLoading := isLoading w;
     inflight := inflight w; sent := sent w |}.

Definition setInputValue (v : jsstring) (w : Widget) : Widget :=
  {| isOpen := isOpen w; messages := messages w; inputValue := v;
     isLoading := isLoading w; inflight := inflight w; sent := sent w |}.

Definition setIsLoading (b : bool) (w : Widget) : Widget :=
  {| isOpen := isOpen w; messages := messages w;
     inputValue := inputValue w; isLoading := b;
     inflight := inflight w; sent := sent w |}.

(** [fetch(req)]: the request goes out and a promise joins [inflight];
    [p] says what, if anything, waits on it. *)
Definition fetch (req : request) (p : pending) (w : Widget) : Widget :=
  {| isOpen := isOpen w; messages := messages w;
     inputValue := inputValue w; isLoading := isLoading w;
     inflight := inflight w ++ [p]; sent := sent w ++ [req] |}.

(** A promise leaves [inflight] when it settles. *)
Definition retire (k : nat) (w : Widget) : Widget :=
  {| isOpen := isOpen w; messages := messages w;
     inputValue := inputValue w; isLoading := isLoading w;
     inflight := delete k (inflight w); sent := sent w |}.

(** *** The two requests *)

Definition chatRequest (question : value) : request :=
  {| url := lit "http://127.0.0.1:8000/chat";
     method := lit "POST";
     headers := [(lit "Content-Type", lit "application/json")];
     body := match question with
             | Val q => Some (JObject [(lit "question", q)])
             | Undefined => Some (JObject [])
             end |}.

Definition healthRequest : request :=
  {| url := lit "https://your-app-name.onrender.com/health";
     method := lit "GET"; headers := []; body := None |}.

(** *** Handlers *)

(** [const toggleChat = () => setIsOpen(!isOpen);] *)
Definition toggleChat (w : Widget) : Widget :=
  setIsOpen (negb (isOpen w)) w.

(** [handleSendMessage], up to its first [await]. *)
Definition handleSendMessage (w : Widget) : Widget :=
  if not_string (trim (inputValue w)) then w
  else
    let userMessage :=
      {| text := Val (JString (inputValue w)); sender := user |} in
    let w := setMessages (fun prev => prev ++ [userMessage]) w in
    let w := setInputValue [] w in
    let w := setIsLoading true w in
    fetch (chatRequest (text userMessage)) (AwaitAnswer userMessage) w.

(** The two awaits of the [try] block, either of which can throw into
    [catch]. No state is read or written between them. *)
Definition awaitFetch (r : settled) : completion Response :=
  match r with
  | Rejects => Throw
  | Responds response => Normal response
  end.

Definition awaitJson (response : Response) : completion json :=
  match payload response with
  | None => Throw
  | Some data => Normal data
  end.

Definition readBody (r : settled) : completion json :=
  response ← awaitFetch r;
  awaitJson response.

(** The updater [(prev) => [...prev, { text: data.answer, sender: "bot" }]].
    [data.answer] is read when the updater runs, and React runs it while
    it next renders the component, after [try] and [finally] are over:
    a throw in it does not reach [catch]. *)
Definition answerUpdater (data : json) (prev : list ChatTurn)
  : completion (list ChatTurn) :=
  answer ← getProp data (lit "answer");
  mret (prev ++ [{| text := answer; sender := bot |}]).

(** [setMessages(updater)] for an updater that can throw. When it throws,
    React gives up the render and unmounts the component: no new list of
    turns comes out of it. *)
Definition setMessagesWith
  (f : list ChatTurn -> completion (list ChatTurn)) (w : Widget) : Widget :=
  match f (messages w) with
  | Normal turns => setMessages (fun _ => turns) w
  | Throw => w
  end.

(** [handleSendMessage], from the settling of its request to the end:
    the rest of [try], or [catch], then [finally]. *)
Definition resume (r : settled) (w : Widget) : Widget :=
  let w :=
    match readBody r with
    | Normal data => setMessagesWith (answerUpdater data) w
    | Throw =>
        let w := setMessages (fun prev => prev ++ [fallback]) w in
        fetch healthRequest Unobserved w
    end in
  setIsLoading false w.

(** [if (e.key === 'Enter') handleSendMessage();] *)
Definition handleKeyPress (key : jsstring) (w : Widget) : Widget :=
  if decide (key = lit "Enter") then handleSendMessage w else w.

(** *** Events *)

(** What can happen to a mounted widget: a click on the floating button,
    on the header's close mark or on Send, an edit of the input, a key
    press in the input, and the settling of the [k]-th promise in
    flight. *)
Inductive Event : Type :=
| ClickChatBtn
| ClickCloseBtn
| Change (v : jsstring)
| KeyPress (key : jsstring)
| ClickSend
| Settle (k : nat) (r : settled).

(** The chat box and everything in it is rendered only under
    [isOpen &&]; an event on an element that is not there changes
    nothing. *)
Definition step (w : Widget) (e : Event) : Widget :=
  match e with
  | ClickChatBtn => toggleChat w
  | ClickCloseBtn => if isOpen w then toggleChat w else w
  | Change v => if isOpen w then setInputValue v w else w
  | KeyPress key => if isOpen w then handleKeyPress key w else w
  | ClickSend => if isOpen w then handleSendMessage w else w
  | Settle k r =>
      match inflight w !! k with
      | None => w
      | Some (AwaitAnswer _) => resume r (retire k w)
      | Some Unobserved => retire k w
      end
  end.

Definition run (evs : list Event) (w : Widget) : Widget :=
  fold_left step evs w.

End ChatWidget.

Import ChatWidget.

(** A submit is a click on Send or the Enter key in the input; both call
    [handleSendMessage]. A toggle is a click on the floating button or on
    the close mark; both call [toggleChat]. *)
Definition submits (e : Event) : Prop :=
  e = ClickSend \/ e = KeyPress (lit "Enter").

Definition toggles (e : Event) : Prop :=
  e = ClickChatBtn \/ e = ClickCloseBtn.

(** The panel is shown and the loading flag is set. *)
Definition openAwaiting (w : Widget) : Prop :=
  isOpen w = true /\ isLoading w = true.

(** The user turn a submit builds from a draft. *)
Definition userTurn (draft : jsstring) : ChatTurn :=
  {| text := Val (JString draft); sender := user |}.

(** The bot turn a settled request leaves behind: the fallback when the
    [try] block threw, the turn holding [data.answer] when the body was
    read, and none when the updater throws on [data.answer]. *)
Definition botTurn (r : settled) : option ChatTurn :=
  match readBody r with
  | Throw => Some fallback
  | Normal data =>
      match getProp data (lit "answer") with
      | Normal answer => Some {| text := answer; sender := bot |}
      | Throw => None
      end
  end.

(** Every user message captured by a suspended [handleSendMessage] is a
    user turn that sits in [messages]. *)
Definition posted (w : Widget) : Prop :=
  forall um, AwaitAnswer um ∈ inflight w ->
    sender um = user /\ um ∈ messages w.

(** *** Scenarios *)

(** The panel opened and [draft] typed into the input. *)
Definition typed (draft : jsstring) : Widget :=
  run [ClickChatBtn; Change draft] init.

(** ... and Send clicked: the request for [draft] is in flight. *)
Definition asked (draft : jsstring) : Widget :=
  run [ClickChatBtn; Change draft; ClickSend] init.

(** ... and a second draft typed while the first request is in flight. *)
Definition askedThenTyped (first second : jsstring) : Widget :=
  run [ClickChatBtn; Change first; ClickSend; Change second] init.

(** A 500 response whose body is JSON, as a FastAPI backend sends. *)
Definition serverError : settled :=
  Responds {| status := 500;
              payload := Some (JObject
                [(lit "detail", JString (lit "Internal Server Error"))]) |}.

(** A 200 response whose JSON body has no [answer] property. *)
Definition noAnswer : settled :=
  Responds {| status := 200;
              payload := Some (JObject
                [(lit "question", JString (lit "hi"))]) |}.

(** A response with status [st] whose body carries [answer], followed by
    further properties. *)
Definition answers (st : Z) (answer : jsstring)
  (more : list (jsstring * json)) : settled :=
  Responds {| status := st;
              payload := Some (JObject
                ((lit "answer", JString answer) :: more)) |}.

(** *** Counting turns, promises and requests *)

(** A draft with at least one code unit that [trim] would keep. *)
Definition nonblank (s : jsstring) : Prop :=
  Exists (fun c => isStrWhiteSpaceChar c = false) s.

Definition count {A : Type} (p : A -> bool) (l : list A) : nat :=
  length (List.filter p l).

Definition isUserTurn (t : ChatTurn) : bool :=
  match sender t with user => true | bot => false end.

Definition isBotTurn (t : ChatTurn) : bool :=
  match sender t with user => false | bot => true end.

Definition isAwaitAnswer (p : pending) : bool :=
  match p with AwaitAnswer _ => true | Unobserved => false end.

(** Requests told apart by the endpoint they go to. *)
Definition isChat (req : request) : bool :=
  bool_decide (url req = lit "http://127.0.0.1:8000/chat").

Definition isProbe (req : request) : bool :=
  bool_decide (url req = lit "https://your-app-name.onrender.com/health").

(** The only two shapes of request the component builds. *)
Definition sendable (req : request) : Prop :=
  req = healthRequest
  \/ exists q, nonblank q /\ req = chatRequest (Val (JString q)).

(** A turn is the bot's, or a user turn holding a non-blank string. *)
Definition sayable (t : ChatTurn) : Prop :=
  sender t = bot \/ exists q, nonblank q /\ t = userTurn q.

(** The bookkeeping that every transition keeps. *)
Record ledger (w : Widget) : Prop := {
  ledger_users :
    count isUserTurn (messages w) = count isChat (sent w);
  ledger_probes :
    count isProbe (sent w) + count isAwaitAnswer (inflight w)
    <= count isChat (sent w);
  ledger_loading :
    isLoading w = true -> 0 < count isAwaitAnswer (inflight w);
  ledger_sent : Forall sendable (sent w);
  ledger_turns : Forall sayable (messages w)
}.

(** *** What is rendered *)

(** One [<div key={index} className={`msg ${msg.sender}`}>{msg.text}</div>]. *)
Record Row : Type := { key : nat; className : jsstring; children : value }.

(** The chat box: the rows of [messages.map], whether the
    ["Thinking..."] row follows them, and the input's [value]. *)
Record ChatBox : Type := {
  rows : list Row;
  thinking : bool;
  inputShown : jsstring
}.

(** The fragment the component function returns: the floating button,
    whose label depends on [isOpen], and the chat box under [isOpen &&].
    This is the element tree handed to React; whether React can put it
    on the page is [reconciles]. *)
Record View : Type := { btnShowsClose : bool; chatBox : option ChatBox }.

Definition senderString (s : Sender) : jsstring :=
  match s with user => lit "user" | bot => lit "bot" end.

Definition renderRow (index : nat) (msg : ChatTurn) : Row :=
  {| key := index;
     className := lit "msg " ++ senderString (sender msg);
     children := text msg |}.

Definition render (w : Widget) : View :=
  {| btnShowsClose := isOpen w;
     chatBox :=
       if isOpen w
       then Some {| rows := imap renderRow (messages w);
                    thinking := isLoading w;
                    inputShown := inputValue w |}
       else None |}.

(** *** When React unmounts the component *)

(** What React accepts as a child [{msg.text}]: strings and numbers are
    shown, [undefined], [null] and booleans show nothing, an array is
    taken item by item, and a plain object makes React throw. *)
Fixpoint validNode (j : json) : bool :=
  match j with
  | JObject _ => false
  | JArray items => forallb validNode items
  | JNull | JBool _ | JNumber _ | JString _ => true
  end.

Definition validChild (v : value) : bool :=
  match v with
  | Undefined => true
  | Val j => validNode j
  end.

(** React can reconcile the returned tree: every row's child is valid.
    With the panel closed no row is in the tree. *)
Definition reconciles (v : View) : bool :=
  match chatBox v with
  | None => true
  | Some box => forallb (fun row => validChild (children row)) (rows box)
  end.

(** The update queued by this event throws when React runs it: the
    settling of a suspended [handleSendMessage] whose body is [null]. *)
Definition updaterThrows (w : Widget) (e : Event) : bool :=
  match e with
  | Settle k r =>
      match inflight w !! k, readBody r with
      | Some (AwaitAnswer _), Normal data =>
          match answerUpdater data (messages w) with
          | Throw => true
          | Normal _ => false
          end
      | _, _ => false
      end
  | _ => false
  end.

(** The render that follows the event throws, in the updater or in the
    reconciliation of the new tree. There is no error boundary: React
    unmounts the component, and [step] has nothing more to say. *)
Definition unmounts (w : Widget) (e : Event) : bool :=
  updaterThrows w e || negb (reconciles (render (step w e))).

(** No event of the sequence unmounts the component. *)
Fixpoint survives (evs : list Event) (w : Widget) : bool :=
  match evs with
  | [] => true
  | e :: evs => negb (unmounts w e) && survives evs (step w e)
  end.

(** The bot turns balance the user turns: the greeting, then one bot
    turn for every request that has settled. *)
Definition balanced (w : Widget) : Prop :=
  count isBotTurn (messages w) + count isAwaitAnswer (inflight w)
  = 1 + count isUserTurn (messages w).

(** A response whose [answer] is an object. *)
Definition answersObject (st : Z) : settled :=
  Responds {| status := st;
              payload := Some (JObject
                [(lit "answer",
                  JObject [(lit "text", JString (lit "hello"))])]) |}.

(** A response whose body is the JSON value [null]. *)
Definition nullBody (st : Z) : settled :=
  Responds {| status := st; payload := Some JNull |}.

(** Two questions asked back to back, both requests in flight. *)
Definition askedTwice (first second : jsstring) : Widget :=
  run [ClickChatBtn; Change first; ClickSend; Change second; ClickSend] init.

(** ** Facts about [trim] *)

Section Trim.

Implicit Types s : jsstring.

Lemma trimStart_nil_iff s :
  trimStart s = [] <-> Forall (fun c => isStrWhiteSpaceChar c = true) s.
Proof.
  induction s as [|c s IH]; simpl.
  - split; [constructor | reflexivity].
  - destruct (isStrWhiteSpaceChar c) eqn:Hc.
    + rewrite IH. split.
      * intros H. by constructor.
      * by inversion 1.
    + split; [discriminate|].
      inversion 1; congruence.
Qed.

Lemma trimStart_head s c rest :
  trimStart s = c :: rest -> isStrWhiteSpaceChar c = false.
Proof.
  induction s as [|d s IH]; simpl; [discriminate|].
  destruct (isStrWhiteSpaceChar d) eqn:Hd; [exact IH|].
  intros [= -> _]. exact Hd.
Qed.

Lemma trimEnd_nil_iff s :
  trimEnd s = [] <-> Forall (fun c => isStrWhiteSpaceChar c = true) s.
Proof.
  unfold trimEnd. split; intros H.
  - apply (f_equal (@rev N)) in H. rewrite rev_involutive in H.
    apply trimStart_nil_iff, Forall_rev in H.
    by rewrite rev_involutive in H.
  - apply Forall_rev, trimStart_nil_iff in H. by rewrite H.
Qed.

(** [s.trim()] is empty exactly when every code unit of [s] is
    whitespace or a line terminator. *)
Lemma trim_nil_iff s :
  trim s = [] <-> Forall (fun c => isStrWhiteSpaceChar c = true) s.
Proof.
  unfold trim. rewrite trimEnd_nil_iff. split.
  - intros H. apply trimStart_nil_iff.
    destruct (trimStart s) as [|c rest] eqn:E; [done|].
    apply trimStart_head in E. inversion H; congruence.
  - intros H. apply trimStart_nil_iff in H. rewrite H. constructor.
Qed.

Lemma not_string_true s : not_string s = true <-> s = [].
Proof. by destruct s. Qed.

Lemma blank_draft s :
  not_string (trim s) = true
  <-> Forall (fun c => isStrWhiteSpaceChar c = true) s.
Proof. by rewrite not_string_true, trim_nil_iff. Qed.

End Trim.

(** ** One transition *)

Section Steps.

Implicit Types (w : Widget) (e : Event) (r : settled).

Lemma step_submit w e :
  isOpen w = true -> submits e -> step w e = handleSendMessage w.
Proof.
  intros Hopen [-> | ->]; simpl; rewrite Hopen; [done|].
  unfold handleKeyPress. by rewrite decide_True.
Qed.

Lemma step_toggle w e :
  isOpen w = true -> toggles e -> step w e = setIsOpen false w.
Proof.
  intros Hopen [-> | ->]; simpl; unfold toggleChat; by rewrite ?Hopen.
Qed.

Lemma handleSendMessage_blank w :
  not_string (trim (inputValue w)) = true -> handleSendMessage w = w.
Proof. unfold handleSendMessage. by intros ->. Qed.

Lemma handleSendMessage_sends w :
  not_string (trim (inputValue w)) = false ->
  handleSendMessage w =
    {| isOpen := isOpen w;
       messages := messages w ++ [userTurn (inputValue w)];
       inputValue := [];
       isLoading := true;
       inflight := inflight w ++ [AwaitAnswer (userTurn (inputValue w))];
       sent := sent w ++ [chatRequest (Val (JString (inputValue w)))] |}.
Proof. unfold handleSendMessage. by intros ->. Qed.

Lemma messages_handleSendMessage w :
  messages w `prefix_of` messages (handleSendMessage w).
Proof.
  unfold handleSendMessage.
  destruct (not_string _); [done|]. simpl. by apply prefix_app_r.
Qed.

(** [resume] leaves everything but the turns to the outcome of the two
    awaits; the updater only decides the turns. *)
Lemma setMessagesWith_frame f w :
  isOpen (setMessagesWith f w) = isOpen w
  /\ inputValue (setMessagesWith f w) = inputValue w
  /\ isLoading (setMessagesWith f w) = isLoading w
  /\ inflight (setMessagesWith f w) = inflight w
  /\ sent (setMessagesWith f w) = sent w.
Proof. unfold setMessagesWith. by destruct (f (messages w)). Qed.

Lemma resume_messages r w :
  messages (resume r w) = messages w ++ option_list (botTurn r).
Proof.
  unfold resume, botTurn, setMessagesWith, answerUpdater.
  destruct (readBody r) as [data|]; simpl; [|done].
  destruct (getProp data (lit "answer")); simpl; [done|].
  by rewrite app_nil_r.
Qed.

Lemma resume_sent r w :
  sent (resume r w) =
    sent w ++ match readBody r with
              | Normal _ => []
              | Throw => [healthRequest]
              end.
Proof.
  unfold resume. destruct (readBody r) as [data|]; simpl; [|done].
  destruct (setMessagesWith_frame (answerUpdater data) w)
    as (_ & _ & _ & _ & ->).
  by rewrite app_nil_r.
Qed.

Lemma resume_inflight r w :
  inflight (resume r w) =
    inflight w ++ match readBody r with
                  | Normal _ => []
                  | Throw => [Unobserved]
                  end.
Proof.
  unfold resume. destruct (readBody r) as [data|]; simpl; [|done].
  destruct (setMessagesWith_frame (answerUpdater data) w)
    as (_ & _ & _ & -> & _).
  by rewrite app_nil_r.
Qed.

Lemma resume_frame r w :
  isLoading (resume r w) = false
  /\ inputValue (resume r w) = inputValue w
  /\ isOpen (resume r w) = isOpen w.
Proof.
  unfold resume. destruct (readBody r) as [data|]; simpl; [|done].
  by destruct (setMessagesWith_frame (answerUpdater data) w)
    as (-> & -> & _).
Qed.

Lemma sender_botTurn r b : botTurn r = Some b -> sender b = bot.
Proof.
  unfold botTurn. destruct (readBody r) as [data|]; [|by intros [= <-]].
  destruct (getProp data (lit "answer")); [by intros [= <-] | done].
Qed.

(** Settling the request of a suspended [handleSendMessage]. *)
Lemma step_settle_answer w k um r :
  inflight w !! k = Some (AwaitAnswer um) ->
  step w (Settle k r) = resume r (retire k w).
Proof. simpl. by intros ->. Qed.

(** Settling a promise nothing waits on. *)
Lemma step_settle_unobserved w k r :
  inflight w !! k = Some Unobserved ->
  step w (Settle k r) = retire k w.
Proof. simpl. by intros ->. Qed.

(** Every transition leaves [messages] as it was or appends to it. *)
Lemma messages_step w e : messages w `prefix_of` messages (step w e).
Proof.
  destruct e; simpl; try done.
  - by destruct (isOpen w).
  - by destruct (isOpen w).
  - destruct (isOpen w); [|done]. unfold handleKeyPress.
    case_decide; [apply messages_handleSendMessage | done].
  - destruct (isOpen w); [apply messages_handleSendMessage | done].
  - destruct (inflight w !! k) as [[um|]|]; try done.
    rewrite resume_messages. simpl. by apply prefix_app_r.
Qed.

Lemma run_cons e evs w : run (e :: evs) w = run evs (step w e).
Proof. done. Qed.

Lemma messages_run evs w : messages w `prefix_of` messages (run evs w).
Proof.
  revert w. induction evs as [|e evs IH]; intros w; [done|].
  rewrite run_cons. etrans; [apply messages_step | apply IH].
Qed.

End Steps.

(** ** What a suspended [handleSendMessage] has already posted *)

Section Posted.

Implicit Types (w : Widget) (e : Event).

Lemma posted_init : posted init.
Proof. intros um H. simpl in H. by apply elem_of_nil in H. Qed.

Lemma posted_handleSendMessage w :
  posted w -> posted (handleSendMessage w).
Proof.
  intros Hw. unfold handleSendMessage.
  destruct (not_string _); [done|].
  intros um. simpl. rewrite elem_of_app, list_elem_of_singleton.
  intros [Hin | [= ->]].
  - destruct (Hw _ Hin) as [? ?]. split; [done|].
    apply elem_of_app. by left.
  - split; [done|]. apply elem_of_app. right. by apply list_elem_of_singleton.
Qed.

Lemma elem_of_delete {A} (x : A) (k : nat) (l : list A) :
  x ∈ delete k l -> x ∈ l.
Proof.
  intros H. eapply elem_of_submseteq; [exact H|].
  apply sublist_submseteq, sublist_delete.
Qed.

Lemma posted_step w e : posted w -> posted (step w e).
Proof.
  intros Hw. destruct e; simpl; try done.
  - by destruct (isOpen w).
  - by destruct (isOpen w).
  - destruct (isOpen w); [|done]. unfold handleKeyPress.
    case_decide; [by apply posted_handleSendMessage | done].
  - destruct (isOpen w); [by apply posted_handleSendMessage | done].
  - destruct (inflight w !! k) as [[um0|]|]; try done.
    + intros um. rewrite resume_inflight, resume_messages. simpl.
      intros Hin.
      assert (AwaitAnswer um ∈ inflight w) as Hin'.
      { apply elem_of_app in Hin as [Hin | Hin].
        - by apply elem_of_delete in Hin.
        - destruct (readBody r); simpl in Hin.
          + by apply elem_of_nil in Hin.
          + by apply list_elem_of_singleton in Hin. }
      destruct (Hw _ Hin') as [? ?]. split; [done|].
      apply elem_of_app. by left.
    + intros um Hin. simpl in Hin. apply elem_of_delete in Hin.
      exact (Hw _ Hin).
Qed.

Lemma posted_run evs w : posted w -> posted (run evs w).
Proof.
  revert w. induction evs as [|e evs IH]; intros w Hw; [done|].
  rewrite run_cons. by apply IH, posted_step.
Qed.

End Posted.

(** ** The failure path *)

(** When the [try] block throws: [fetch] rejected, or the body was not
    JSON. The status code plays no part. *)
Lemma readBody_throws r :
  readBody r = Throw <->
  r = Rejects
  \/ (exists st, r = Responds {| status := st; payload := None |}).
Proof.
  split.
  - destruct r as [|[st [data|]]]; [by left | done | right; by exists st].
  - intros [-> | [st ->]]; reflexivity.
Qed.

(** C1, as the code has it: when the request of a submission fails at the
    network level ([fetch] rejects), or its response body is not parseable
    as JSON, whatever the status code, exactly one bot turn with the fixed
    fallback text is appended, exactly one probe of the health endpoint is
    issued and the loading flag is cleared; however the probe then
    settles, nothing of this changes. *)
Theorem C1_fallback_when_try_throws (w : Widget) (k : nat) (um : ChatTurn)
  (r : settled) :
  inflight w !! k = Some (AwaitAnswer um) ->
  r = Rejects
  \/ (exists st, r = Responds {| status := st; payload := None |}) ->
  messages (step w (Settle k r)) = messages w ++ [fallback]
  /\ sent (step w (Settle k r)) = sent w ++ [healthRequest]
  /\ inflight (step w (Settle k r)) = delete k (inflight w) ++ [Unobserved]
  /\ isLoading (step w (Settle k r)) = false
  /\ forall probe : settled,
       step (step w (Settle k r))
            (Settle (length (delete k (inflight w))) probe)
       = retire (length (delete k (inflight w))) (step w (Settle k r))
       /\ messages (step (step w (Settle k r))
            (Settle (length (delete k (inflight w))) probe))
          = messages w ++ [fallback]
       /\ sent (step (step w (Settle k r))
            (Settle (length (delete k (inflight w))) probe))
          = sent w ++ [healthRequest].
Proof.
  intros Hk Hr. apply readBody_throws in Hr.
  rewrite (step_settle_answer _ _ _ _ Hk).
  assert (inflight (resume r (retire k w))
          = delete k (inflight w) ++ [Unobserved]) as Hfl.
  { rewrite resume_inflight, Hr. done. }
  assert (messages (resume r (retire k w)) = messages w ++ [fallback])
    as Hmsg.
  { rewrite resume_messages. unfold botTurn. by rewrite Hr. }
  assert (sent (resume r (retire k w)) = sent w ++ [healthRequest])
    as Hsent.
  { rewrite resume_sent, Hr. done. }
  assert (forall probe,
            step (resume r (retire k w))
                 (Settle (length (delete k (inflight w))) probe)
            = retire (length (delete k (inflight w)))
                     (resume r (retire k w))) as Hprobe.
  { intros probe. apply step_settle_unobserved.
    rewrite Hfl. by apply list_lookup_middle. }
  pose proof (resume_frame r (retire k w)) as (Hload & _).
  repeat split; try done; rewrite Hprobe; done.
Qed.

Lemma C1_fallback_when_try_throws_witness :
  inflight (asked (lit "hi")) !! 0%nat = Some (AwaitAnswer (userTurn (lit "hi")))
  /\ messages (step (asked (lit "hi")) (Settle 0 Rejects))
     = [greeting; userTurn (lit "hi"); fallback]
  /\ sent (step (asked (lit "hi")) (Settle 0 Rejects))
     = [chatRequest (Val (JString (lit "hi"))); healthRequest]
  /\ messages (step (asked (lit "hi"))
                 (Settle 0 (Responds {| status := 502; payload := None |})))
     = [greeting; userTurn (lit "hi"); fallback]
  /\ sent (step (asked (lit "hi"))
             (Settle 0 (Responds {| status := 502; payload := None |})))
     = [chatRequest (Val (JString (lit "hi"))); healthRequest].
Proof.
  split; [reflexivity|].
  destruct (C1_fallback_when_try_throws (asked (lit "hi")) 0
              (userTurn (lit "hi")) Rejects)
    as (Hm & Hs & _); [reflexivity | by left |].
  destruct (C1_fallback_when_try_throws (asked (lit "hi")) 0
              (userTurn (lit "hi"))
              (Responds {| status := 502; payload := None |}))
    as (Hm' & Hs' & _); [reflexivity | right; by exists 502%Z |].
  repeat split; assumption.
Defined.

(** C1 as stated fails: a non-2xx response with a JSON body, and a 2xx
    response whose body has no [answer] property, both take the success
    path. The bot turn's text is [undefined], it is not the fallback, and
    no probe goes out. *)
Lemma C1_counterexample :
  inflight (asked (lit "hi")) !! 0%nat = Some (AwaitAnswer (userTurn (lit "hi")))
  /\ messages (step (asked (lit "hi")) (Settle 0 serverError))
     = [greeting; userTurn (lit "hi"); {| text := Undefined; sender := bot |}]
  /\ messages (step (asked (lit "hi")) (Settle 0 serverError))
     <> messages (asked (lit "hi")) ++ [fallback]
  /\ sent (step (asked (lit "hi")) (Settle 0 serverError))
     = sent (asked (lit "hi"))
  /\ messages (step (asked (lit "hi")) (Settle 0 noAnswer))
     <> messages (asked (lit "hi")) ++ [fallback]
  /\ sent (step (asked (lit "hi")) (Settle 0 noAnswer))
     = sent (asked (lit "hi")).
Proof.
  repeat split; try reflexivity; vm_compute; discriminate.
Qed.

(** ** Submitting *)

(** C2, as the code has it: [handleSendMessage] does not look at the
    loading flag. While a request is in flight and the panel is open, a
    submit whose draft is non-empty after trimming appends its user turn
    at once and sends a second request; the first one stays in flight. *)
Theorem C2_submit_while_awaiting (w : Widget) (e : Event) (k : nat)
  (um : ChatTurn) :
  openAwaiting w ->
  inflight w !! k = Some (AwaitAnswer um) ->
  submits e ->
  not_string (trim (inputValue w)) = false ->
  messages (step w e) = messages w ++ [userTurn (inputValue w)]
  /\ inflight (step w e)
     = inflight w ++ [AwaitAnswer (userTurn (inputValue w))]
  /\ inflight (step w e) !! k = Some (AwaitAnswer um)
  /\ sent (step w e)
     = sent w ++ [chatRequest (Val (JString (inputValue w)))]
  /\ isLoading (step w e) = true.
Proof.
  intros [Hopen _] Hk He Hdraft.
  rewrite (step_submit _ _ Hopen He), (handleSendMessage_sends _ Hdraft).
  simpl. repeat split; try done.
  by apply lookup_app_l_Some.
Qed.

Lemma C2_submit_while_awaiting_witness :
  openAwaiting (askedThenTyped (lit "a") (lit "b"))
  /\ messages (step (askedThenTyped (lit "a") (lit "b")) ClickSend)
     = [greeting; userTurn (lit "a"); userTurn (lit "b")].
Proof.
  split; [by split|].
  destruct (C2_submit_while_awaiting (askedThenTyped (lit "a") (lit "b"))
              ClickSend 0 (userTurn (lit "a")))
    as (Hm & _); [by split | reflexivity | by left | reflexivity |].
  exact Hm.
Defined.

(** C2 as stated fails: with the first request still in flight and the
    loading flag set, a second submit does append a second user turn. *)
Lemma C2_counterexample :
  openAwaiting (askedThenTyped (lit "a") (lit "b"))
  /\ inflight (askedThenTyped (lit "a") (lit "b"))
     = [AwaitAnswer (userTurn (lit "a"))]
  /\ messages (askedThenTyped (lit "a") (lit "b"))
     = [greeting; userTurn (lit "a")]
  /\ messages (step (askedThenTyped (lit "a") (lit "b")) ClickSend)
     = [greeting; userTurn (lit "a"); userTurn (lit "b")]
  /\ inflight (step (askedThenTyped (lit "a") (lit "b")) ClickSend)
     = [AwaitAnswer (userTurn (lit "a")); AwaitAnswer (userTurn (lit "b"))].
Proof. repeat split; reflexivity. Qed.

(** C3, as the code has it: on a submit whose draft is non-empty after
    trimming, the user turn carries the draft as typed, leading and
    trailing whitespace included; the question in the request body is that
    same untrimmed text; the draft is cleared in the same task. The trimmed
    draft only decides whether anything is sent. *)
Theorem C3_submit_keeps_draft_untrimmed (w : Widget) (e : Event) :
  isOpen w = true ->
  submits e ->
  not_string (trim (inputValue w)) = false ->
  messages (step w e)
  = messages w ++ [{| text := Val (JString (inputValue w));
                      sender := user |}]
  /\ (exists req,
        sent (step w e) = sent w ++ [req]
        /\ body req
           = Some (JObject [(lit "question", JString (inputValue w))]))
  /\ inputValue (step w e) = [].
Proof.
  intros Hopen He Hdraft.
  rewrite (step_submit _ _ Hopen He), (handleSendMessage_sends _ Hdraft).
  simpl. repeat split; try done. by eexists.
Qed.

Lemma C3_submit_keeps_draft_untrimmed_witness :
  isOpen (typed (lit " hi ")) = true
  /\ not_string (trim (inputValue (typed (lit " hi ")))) = false
  /\ messages (step (typed (lit " hi ")) ClickSend)
     = [greeting; {| text := Val (JString (lit " hi ")); sender := user |}]
  /\ inputValue (step (typed (lit " hi ")) ClickSend) = [].
Proof.
  split; [reflexivity|]. split; [reflexivity|].
  destruct (C3_submit_keeps_draft_untrimmed (typed (lit " hi ")) ClickSend)
    as (Hm & _ & Hd); [reflexivity | by left | reflexivity |].
  split; [exact Hm | exact Hd].
Defined.

(** C3 as stated fails: for the draft [" hi "] the appended user turn and
    the question sent both hold [" hi "], not the trimmed ["hi"]. *)
Lemma C3_counterexample :
  isOpen (typed (lit " hi ")) = true
  /\ trim (inputValue (typed (lit " hi "))) = lit "hi"
  /\ messages (step (typed (lit " hi ")) ClickSend)
     = [greeting; {| text := Val (JString (lit " hi ")); sender := user |}]
  /\ messages (step (typed (lit " hi ")) ClickSend)
     <> messages (typed (lit " hi "))
        ++ [{| text := Val (JString (trim (inputValue (typed (lit " hi ")))));
               sender := user |}]
  /\ body <$> sent (step (typed (lit " hi ")) ClickSend)
     = [Some (JObject [(lit "question", JString (lit " hi "))])]
  /\ body <$> sent (step (typed (lit " hi ")) ClickSend)
     <> [Some (JObject
          [(lit "question",
            JString (trim (inputValue (typed (lit " hi ")))))])].
Proof.
  repeat split; try reflexivity; vm_compute; discriminate.
Qed.

(** C8: a submit whose draft is empty or all whitespace changes nothing:
    turns, loading flag, draft, promises in flight and requests sent are
    all as before, whether the submit is a click on Send or the Enter
    key. *)
Theorem C8_blank_submit_is_noop (w : Widget) (e : Event) :
  Forall (fun c => isStrWhiteSpaceChar c = true) (inputValue w) ->
  submits e ->
  step w e = w
  /\ handleSendMessage w = w
  /\ messages (step w e) = messages w
  /\ isLoading (step w e) = isLoading w
  /\ sent (step w e) = sent w
  /\ inflight (step w e) = inflight w.
Proof.
  intros Hblank He. apply blank_draft in Hblank.
  assert (handleSendMessage w = w) as Hh
    by by apply handleSendMessage_blank.
  assert (step w e = w) as ->.
  { destruct He as [-> | ->]; simpl; by destruct (isOpen w). }
  done.
Qed.

Lemma C8_blank_submit_is_noop_witness :
  Forall (fun c => isStrWhiteSpaceChar c = true)
         (inputValue (typed (lit "   ")))
  /\ step (typed (lit "   ")) ClickSend = typed (lit "   ")
  /\ step (typed []) (KeyPress (lit "Enter")) = typed [].
Proof.
  split; [by repeat constructor|].
  split.
  - apply (C8_blank_submit_is_noop (typed (lit "   ")) ClickSend);
      [by repeat constructor | by left].
  - apply (C8_blank_submit_is_noop (typed []) (KeyPress (lit "Enter")));
      [by constructor | by right].
Defined.

(** C10: on a submit whose draft is non-empty after trimming, the
    question put in the request body is the text of the user turn just
    appended. The turn is built from the draft before the draft is
    cleared, and the body is built from the turn, so the request carries
    the draft although [inputValue] is empty by then. *)
Theorem C10_question_is_user_turn_text (w : Widget) (e : Event) :
  isOpen w = true ->
  submits e ->
  not_string (trim (inputValue w)) = false ->
  exists (um : ChatTurn) (q : json),
    messages (step w e) = messages w ++ [um]
    /\ sender um = user
    /\ text um = Val q
    /\ q = JString (inputValue w)
    /\ sent (step w e) = sent w ++ [chatRequest (text um)]
    /\ url (chatRequest (text um)) = lit "http://127.0.0.1:8000/chat"
    /\ method (chatRequest (text um)) = lit "POST"
    /\ body (chatRequest (text um)) = Some (JObject [(lit "question", q)])
    /\ inputValue (step w e) = [].
Proof.
  intros Hopen He Hdraft.
  rewrite (step_submit _ _ Hopen He), (handleSendMessage_sends _ Hdraft).
  exists (userTurn (inputValue w)), (JString (inputValue w)).
  simpl. repeat split; done.
Qed.

Lemma C10_question_is_user_turn_text_witness :
  isOpen (typed (lit "Who is the CEO?")) = true
  /\ exists (um : ChatTurn) (q : json),
       messages (step (typed (lit "Who is the CEO?")) ClickSend)
       = messages (typed (lit "Who is the CEO?")) ++ [um]
       /\ text um = Val q
       /\ q = JString (lit "Who is the CEO?")
       /\ sent (step (typed (lit "Who is the CEO?")) ClickSend)
          = [chatRequest (text um)].
Proof.
  split; [reflexivity|].
  destruct (C10_question_is_user_turn_text
              (typed (lit "Who is the CEO?")) ClickSend)
    as (um & q & Hm & _ & Ht & Hq & Hs & _);
    [reflexivity | by left | reflexivity |].
  exists um, q. repeat split; assumption.
Defined.

(** ** Scenario A *)

(** C4: from a fresh widget, the user opens the panel, enters
    ["Who is the CEO?"] and submits (Send or Enter); the request settles
    with a success response whose body has [answer] equal to
    ["Unmesh Mehta is the CEO."]. The conversation is then exactly the
    greeting, the user's question and the bot's answer, in that order. *)
Theorem C4_scenario_A (e : Event) (st : Z) (props : list (jsstring * json)) :
  submits e ->
  (200 <= st <= 299)%Z ->
  getOwn props (lit "answer")
  = Val (JString (lit "Unmesh Mehta is the CEO.")) ->
  messages
    (run [ClickChatBtn; Change (lit "Who is the CEO?"); e;
          Settle 0 (Responds {| status := st;
                                payload := Some (JObject props) |})]
         init)
  = [greeting;
     {| text := Val (JString (lit "Who is the CEO?")); sender := user |};
     {| text := Val (JString (lit "Unmesh Mehta is the CEO."));
        sender := bot |}].
Proof.
  intros He _ Hanswer.
  assert (step (run [ClickChatBtn; Change (lit "Who is the CEO?")] init) e
          = asked (lit "Who is the CEO?")) as Hasked
    by (destruct He as [-> | ->]; reflexivity).
  change (run [ClickChatBtn; Change (lit "Who is the CEO?"); e;
               Settle 0 (Responds {| status := st;
                                     payload := Some (JObject props) |})]
              init)
    with (step (step (run [ClickChatBtn; Change (lit "Who is the CEO?")] init)
                     e)
               (Settle 0 (Responds {| status := st;
                                      payload := Some (JObject props) |}))).
  rewrite Hasked.
  rewrite (step_settle_answer _ _ (userTurn (lit "Who is the CEO?")))
    by reflexivity.
  rewrite resume_messages. unfold botTurn, readBody. simpl.
  by rewrite Hanswer.
Qed.

Lemma C4_scenario_A_witness :
  (200 <= 200 <= 299)%Z
  /\ messages
       (run [ClickChatBtn; Change (lit "Who is the CEO?"); ClickSend;
             Settle 0 (answers 200 (lit "Unmesh Mehta is the CEO.")
                         [(lit "timestamp", JString (lit "2025-01-01"))])]
            init)
     = [{| text := Val (JString (lit "Hello! Ask me anything about SMIK."));
           sender := bot |};
        {| text := Val (JString (lit "Who is the CEO?")); sender := user |};
        {| text := Val (JString (lit "Unmesh Mehta is the CEO."));
           sender := bot |}].
Proof.
  split; [lia|].
  apply (C4_scenario_A ClickSend 200
           [(lit "answer", JString (lit "Unmesh Mehta is the CEO."));
            (lit "timestamp", JString (lit "2025-01-01"))]);
    [by left | lia | reflexivity].
Defined.

(** ** Invariants of the conversation *)

Lemma messages_step_cases (w : Widget) (e : Event) :
  messages (step w e) = messages w
  \/ exists t, messages (step w e) = messages w ++ [t].
Proof.
  assert (messages (handleSendMessage w) = messages w
          \/ exists t, messages (handleSendMessage w) = messages w ++ [t])
    as Hsend.
  { unfold handleSendMessage. destruct (not_string _); [by left|].
    right. by eexists. }
  destruct e; simpl; try by left.
  - destruct (isOpen w); by left.
  - destruct (isOpen w); by left.
  - destruct (isOpen w); [|by left]. unfold handleKeyPress.
    case_decide; [exact Hsend | by left].
  - destruct (isOpen w); [exact Hsend | by left].
  - destruct (inflight w !! k) as [[um|]|]; try by left.
    rewrite resume_messages. simpl.
    destruct (botTurn r) as [b|]; simpl; [right; by eexists | left].
    by rewrite app_nil_r.
Qed.

(** C5: along every sequence of events the turn sequence only grows, and
    only at its end: each transition leaves it as it is or appends one
    turn; after any further events the earlier sequence is still there,
    unchanged, as the initial segment of the later one. *)
Theorem C5_messages_append_only (evs1 evs2 : list Event) (w : Widget)
  (e : Event) :
  (messages (step w e) = messages w
   \/ exists t, messages (step w e) = messages w ++ [t])
  /\ (exists added,
        messages (run (evs1 ++ evs2) w) = messages (run evs1 w) ++ added)
  /\ length (messages (run evs1 w))
     <= length (messages (run (evs1 ++ evs2) w))
  /\ take (length (messages (run evs1 w)))
          (messages (run (evs1 ++ evs2) w))
     = messages (run evs1 w).
Proof.
  split; [apply messages_step_cases|].
  assert (messages (run evs1 w) `prefix_of` messages (run (evs1 ++ evs2) w))
    as Hpre.
  { unfold run at 2. rewrite fold_left_app. apply messages_run. }
  split; [exact Hpre|].
  split; [by apply prefix_length|].
  destruct Hpre as [added ->]. by rewrite take_app_length.
Qed.

(** C6: a fresh conversation is the one greeting turn, a bot turn with
    the fixed greeting text, and after every sequence of events the
    greeting is still the turn at index 0. *)
Theorem C6_greeting_stays_first (evs : list Event) :
  messages init !! 0%nat = Some greeting
  /\ sender greeting = bot
  /\ text greeting
     = Val (JString (lit "Hello! Ask me anything about SMIK."))
  /\ messages (run evs init) !! 0%nat = Some greeting.
Proof.
  repeat split.
  eapply prefix_lookup_Some; [|apply messages_run]. reflexivity.
Qed.

(** ** Order of a submission's two turns *)

(** What [unmounts] rules out, and what is left when it is ruled out. *)
Lemma forallb_imap_renderRow (g : nat -> ChatTurn -> Row) (l : list ChatTurn) :
  (forall i t, children (g i t) = text t) ->
  forallb (fun row => validChild (children row)) (imap g l)
  = forallb (fun t => validChild (text t)) l.
Proof.
  revert g. induction l as [|t l IH]; intros g Hg; [done|].
  simpl. rewrite Hg. f_equal. apply IH. intros i t'. apply Hg.
Qed.

Lemma reconciles_open (w : Widget) :
  isOpen w = true ->
  reconciles (render w) = forallb (fun t => validChild (text t)) (messages w).
Proof.
  intros Hopen. unfold reconciles, render. rewrite Hopen. simpl.
  by apply forallb_imap_renderRow.
Qed.

Lemma reconciles_closed (w : Widget) :
  isOpen w = false -> reconciles (render w) = true.
Proof. intros Hclosed. unfold reconciles, render. by rewrite Hclosed. Qed.

Lemma unmounts_false (w : Widget) (e : Event) :
  unmounts w e = false ->
  updaterThrows w e = false /\ reconciles (render (step w e)) = true.
Proof.
  unfold unmounts. intros H. apply orb_false_elim in H as [Hu Hr].
  split; [done|]. by apply negb_false_iff.
Qed.

Lemma updaterThrows_settle (w : Widget) (k : nat) (um : ChatTurn)
  (r : settled) :
  inflight w !! k = Some (AwaitAnswer um) ->
  updaterThrows w (Settle k r) = false <-> is_Some (botTurn r).
Proof.
  intros Hk. unfold updaterThrows, botTurn, answerUpdater. rewrite Hk.
  destruct (readBody r) as [data|]; [|by split].
  destruct (getProp data (lit "answer")); simpl; split; try done;
    by intros [? ?].
Qed.

(** C7: a submit with a non-empty draft [Q] appends the user turn for [Q]
    in the same task that sends the request, so the turn is in [messages]
    from the moment the request exists. Whatever happens next, it keeps
    its index [n]; when a request settles later, answered or failed, and
    the component is not unmounted by it, its bot turn lands at the then
    end of [messages], an index above [n] and above the index of the
    user turn that the settling request's own [handleSendMessage]
    captured. *)
Theorem C7_user_turn_before_bot_turn (pre evs : list Event) (e : Event)
  (k : nat) (um : ChatTurn) (r : settled) :
  isOpen (run pre init) = true ->
  submits e ->
  not_string (trim (inputValue (run pre init))) = false ->
  inflight (run evs (step (run pre init) e)) !! k = Some (AwaitAnswer um) ->
  unmounts (run evs (step (run pre init) e)) (Settle k r) = false ->
  (* the submit itself *)
  messages (step (run pre init) e)
  = messages (run pre init) ++ [userTurn (inputValue (run pre init))]
  /\ inflight (step (run pre init) e)
     = inflight (run pre init)
       ++ [AwaitAnswer (userTurn (inputValue (run pre init)))]
  /\ sent (step (run pre init) e)
     = sent (run pre init)
       ++ [chatRequest (Val (JString (inputValue (run pre init))))]
  (* the settling *)
  /\ (exists b,
        botTurn r = Some b
        /\ sender b = bot
        /\ messages (step (run evs (step (run pre init) e)) (Settle k r))
           = messages (run evs (step (run pre init) e)) ++ [b])
  /\ messages (step (run evs (step (run pre init) e)) (Settle k r))
       !! length (messages (run pre init))
     = Some (userTurn (inputValue (run pre init)))
  /\ length (messages (run pre init))
     < length (messages (run evs (step (run pre init) e)))
  /\ sender um = user
  /\ exists i,
       i < length (messages (run evs (step (run pre init) e)))
       /\ messages (step (run evs (step (run pre init) e)) (Settle k r)) !! i
          = Some um.
Proof.
  intros Hopen He Hdraft Hk Halive.
  set (w := run pre init) in *.
  assert (posted (run evs (step w e))) as Hposted.
  { apply posted_run, posted_step, posted_run, posted_init. }
  set (w1 := step w e) in *.
  assert (w1 = handleSendMessage w) as Hw1 by by apply step_submit.
  rewrite (handleSendMessage_sends _ Hdraft) in Hw1.
  assert (messages w1 = messages w ++ [userTurn (inputValue w)]) as Hm1
    by by rewrite Hw1.
  set (w2 := run evs w1) in *.
  assert (messages w2 !! length (messages w)
          = Some (userTurn (inputValue w))) as Hn.
  { eapply prefix_lookup_Some; [|apply messages_run].
    rewrite Hm1. by apply list_lookup_middle. }
  apply unmounts_false in Halive as [Hthrow _].
  apply (updaterThrows_settle _ _ _ _ Hk) in Hthrow as [b Hb].
  rewrite (step_settle_answer _ _ _ _ Hk), resume_messages, Hb. simpl.
  split; [done|]. split; [by rewrite Hw1|]. split; [by rewrite Hw1|].
  split; [exists b; by eauto using sender_botTurn|].
  split; [by apply lookup_app_l_Some|].
  split; [by apply lookup_lt_Some in Hn|].
  destruct (Hposted um) as [Hsender Hin].
  { apply list_elem_of_lookup. by exists k. }
  split; [done|].
  apply list_elem_of_lookup in Hin as [i Hi].
  exists i. split; [by apply lookup_lt_Some in Hi|].
  by apply lookup_app_l_Some.
Qed.

Lemma C7_user_turn_before_bot_turn_witness :
  isOpen (run [ClickChatBtn; Change (lit "hi")] init) = true
  /\ unmounts (run [] (step (run [ClickChatBtn; Change (lit "hi")] init)
                            ClickSend))
              (Settle 0 (answers 200 (lit "hello") [])) = false
  /\ (exists b,
        botTurn (answers 200 (lit "hello") []) = Some b
        /\ sender b = bot
        /\ messages (step (run [] (step (run [ClickChatBtn;
                                              Change (lit "hi")] init)
                                        ClickSend))
                          (Settle 0 (answers 200 (lit "hello") [])))
           = messages (run [] (step (run [ClickChatBtn; Change (lit "hi")]
                                         init) ClickSend)) ++ [b])
  /\ (1 < 2)%nat.
Proof.
  split; [reflexivity|]. split; [reflexivity|].
  destruct (C7_user_turn_before_bot_turn [ClickChatBtn; Change (lit "hi")]
              [] ClickSend 0 (userTurn (lit "hi"))
              (answers 200 (lit "hello") []))
    as (_ & _ & _ & Hm & _ & Hlt & _);
    [reflexivity | by left | reflexivity | reflexivity | reflexivity |].
  split; [exact Hm | exact Hlt].
Defined.

(** ** Toggling with a request in flight *)

Lemma step_settle_setIsOpen (b : bool) (w : Widget) (k : nat) (r : settled) :
  step (setIsOpen b w) (Settle k r) = setIsOpen b (step w (Settle k r)).
Proof.
  simpl. destruct (inflight w !! k) as [[um|]|]; try reflexivity.
  unfold resume, setMessagesWith. simpl.
  destruct (readBody r) as [data|]; [|done].
  by destruct (answerUpdater data (messages w)).
Qed.

Lemma setIsOpen_id (w : Widget) : setIsOpen (isOpen w) w = w.
Proof. by destruct w. Qed.

(** C9, as the code has it: with the panel open and a request in flight,
    a toggle (floating button or close mark) only hides the panel: turns,
    draft, loading flag, promises in flight and requests sent are as
    before. For every settling that would not unmount the component with
    the panel open, the request settles after the toggle as it would have
    with the panel open: the component is not unmounted, the resulting
    state differs only in [isOpen], the same bot turn is appended, and
    reopening the panel shows it. *)
Theorem C9_toggle_leaves_request_alone (w : Widget) (e : Event) (k : nat)
  (um : ChatTurn) (r : settled) :
  openAwaiting w ->
  inflight w !! k = Some (AwaitAnswer um) ->
  toggles e ->
  unmounts w (Settle k r) = false ->
  isOpen (step w e) = false
  /\ messages (step w e) = messages w
  /\ inputValue (step w e) = inputValue w
  /\ isLoading (step w e) = isLoading w
  /\ inflight (step w e) = inflight w
  /\ sent (step w e) = sent w
  /\ unmounts (step w e) (Settle k r) = false
  /\ step (step w e) (Settle k r) = setIsOpen false (step w (Settle k r))
  /\ (exists b,
        botTurn r = Some b
        /\ messages (step (step w e) (Settle k r)) = messages w ++ [b]
        /\ messages (step w (Settle k r)) = messages w ++ [b]
        /\ messages (step (step (step w e) (Settle k r)) ClickChatBtn)
           = messages w ++ [b])
  /\ sent (step (step w e) (Settle k r)) = sent (step w (Settle k r))
  /\ isLoading (step (step w e) (Settle k r)) = false
  /\ unmounts (step (step w e) (Settle k r)) ClickChatBtn = false
  /\ step (step (step w e) (Settle k r)) ClickChatBtn
     = step w (Settle k r)
  /\ isOpen (step (step (step w e) (Settle k r)) ClickChatBtn) = true.
Proof.
  intros [Hopen _] Hk He Halive.
  apply unmounts_false in Halive as [Hthrow Hrec].
  assert (updaterThrows (setIsOpen false w) (Settle k r) = false) as Hthrow'
    by exact Hthrow.
  apply (updaterThrows_settle _ _ _ _ Hk) in Hthrow as [b Hb].
  rewrite (step_toggle _ _ Hopen He).
  assert (unmounts (setIsOpen false w) (Settle k r) = false) as Halive'.
  { unfold unmounts. rewrite Hthrow', step_settle_setIsOpen.
    by rewrite reconciles_closed. }
  rewrite step_settle_setIsOpen.
  rewrite (step_settle_answer _ _ _ _ Hk) in Hrec |- *.
  pose proof (resume_messages r (retire k w)) as Hm.
  rewrite Hb in Hm.
  change (messages (retire k w) ++ option_list (Some b))
    with (messages w ++ [b]) in Hm.
  pose proof (resume_sent r (retire k w)) as Hs.
  pose proof (resume_frame r (retire k w)) as (Hl & _ & Ho).
  change (isOpen (retire k w)) with (isOpen w) in Ho. rewrite Hopen in Ho.
  clear Hs.
  generalize dependent (resume r (retire k w)). intros w' Hrec Hm Hl Ho.
  assert (step (setIsOpen false w') ClickChatBtn = w') as Hback.
  { destruct w'. simpl in Ho. subst. reflexivity. }
  repeat split; try done.
  - exists b. by rewrite Hback.
  - unfold unmounts. by rewrite Hback, Hrec.
Qed.

Lemma C9_toggle_leaves_request_alone_witness :
  openAwaiting (asked (lit "hi"))
  /\ unmounts (asked (lit "hi")) (Settle 0 (answers 200 (lit "hello") []))
     = false
  /\ isOpen (step (asked (lit "hi")) ClickCloseBtn) = false
  /\ step (step (asked (lit "hi")) ClickCloseBtn)
          (Settle 0 (answers 200 (lit "hello") []))
     = setIsOpen false
         (step (asked (lit "hi")) (Settle 0 (answers 200 (lit "hello") []))).
Proof.
  split; [by split|]. split; [reflexivity|].
  destruct (C9_toggle_leaves_request_alone (asked (lit "hi")) ClickCloseBtn
              0 (userTurn (lit "hi")) (answers 200 (lit "hello") []))
    as (Ho & _ & _ & _ & _ & _ & _ & Hs & _);
    [by split | reflexivity | by right | reflexivity |].
  split; [exact Ho | exact Hs].
Defined.

(** C9 as stated fails: the toggle can alter what the settling does. When
    the answer is an object, the settling with the panel open makes React
    throw on the new row and the component is unmounted; after a toggle
    the same settling appends the turn to a component that stays mounted,
    and it is the reopening that unmounts it. *)
Lemma C9_counterexample :
  openAwaiting (asked (lit "hi"))
  /\ inflight (asked (lit "hi")) !! 0%nat
     = Some (AwaitAnswer (userTurn (lit "hi")))
  /\ unmounts (asked (lit "hi")) (Settle 0 (answersObject 200)) = true
  /\ unmounts (step (asked (lit "hi")) ClickCloseBtn)
              (Settle 0 (answersObject 200)) = false
  /\ messages (step (step (asked (lit "hi")) ClickCloseBtn)
                    (Settle 0 (answersObject 200)))
     = [greeting; userTurn (lit "hi");
        {| text := Val (JObject [(lit "text", JString (lit "hello"))]);
           sender := bot |}]
  /\ unmounts (step (step (asked (lit "hi")) ClickCloseBtn)
                    (Settle 0 (answersObject 200)))
              ClickChatBtn = true.
Proof. repeat split; reflexivity. Qed.

(** * Further properties of the component *)

(** ** Blank and non-blank drafts *)

Lemma blank_or_nonblank (s : jsstring) :
  Forall (fun c => isStrWhiteSpaceChar c = true) s \/ nonblank s.
Proof.
  unfold nonblank. induction s as [|c s [IH | IH]].
  - left. constructor.
  - destruct (isStrWhiteSpaceChar c) eqn:Hc.
    + left. by constructor.
    + right. by apply Exists_cons_hd.
  - right. by apply Exists_cons_tl.
Qed.

Lemma nonblank_iff (s : jsstring) :
  not_string (trim s) = false <-> nonblank s.
Proof.
  split.
  - intros Hs. destruct (blank_or_nonblank s) as [Hb | Hn]; [|done].
    apply blank_draft in Hb. congruence.
  - intros Hn. destruct (not_string (trim s)) eqn:Hs; [|done].
    apply blank_draft in Hs. exfalso.
    induction Hn as [c s Hc | c s _ IH].
    + apply Forall_cons_1 in Hs as [? _]. congruence.
    + apply Forall_cons_1 in Hs as [_ ?]. by apply IH.
Qed.

(** ** Counting *)

Section Counting.

Context {A : Type} (p : A -> bool).

Lemma count_app (l1 l2 : list A) :
  count p (l1 ++ l2) = count p l1 + count p l2.
Proof. unfold count. by rewrite List.filter_app, length_app. Qed.

Lemma count_snoc (l : list A) (x : A) :
  count p (l ++ [x]) = count p l + (if p x then 1 else 0).
Proof. rewrite count_app. unfold count. simpl. by destruct (p x). Qed.

Lemma count_delete (l : list A) (k : nat) (x : A) :
  l !! k = Some x ->
  count p l = count p (delete k l) + (if p x then 1 else 0).
Proof.
  revert k. induction l as [|y l IH]; intros [|k] Hk; try done.
  - injection Hk as ->. unfold count. simpl. destruct (p x); simpl; lia.
  - simpl in Hk. apply IH in Hk. unfold count in *. simpl.
    destruct (p y); simpl; lia.
Qed.

End Counting.

(** ** The shape of a transition *)

(** A transition is one of four things: it leaves turns, promises,
    requests and the loading flag alone; it is a submit that sends; it
    settles a suspended [handleSendMessage]; or it settles a probe. *)
Lemma step_cases (w : Widget) (e : Event) :
  (messages (step w e) = messages w /\ inflight (step w e) = inflight w
   /\ sent (step w e) = sent w /\ isLoading (step w e) = isLoading w)
  \/ (isOpen w = true /\ not_string (trim (inputValue w)) = false
      /\ step w e = handleSendMessage w)
  \/ (exists k um r, e = Settle k r
        /\ inflight w !! k = Some (AwaitAnswer um)
        /\ step w e = resume r (retire k w))
  \/ (exists k r, e = Settle k r
        /\ inflight w !! k = Some Unobserved
        /\ step w e = retire k w).
Proof.
  assert (forall w',
            w' = handleSendMessage w -> isOpen w = true ->
            (messages w' = messages w /\ inflight w' = inflight w
             /\ sent w' = sent w /\ isLoading w' = isLoading w)
            \/ (isOpen w = true /\ not_string (trim (inputValue w)) = false
                /\ w' = handleSendMessage w)) as Hsend.
  { intros w' -> Hopen.
    destruct (not_string (trim (inputValue w))) eqn:Hd.
    - left. by rewrite handleSendMessage_blank.
    - right. done. }
  destruct e; simpl.
  - by left.
  - left. by destruct (isOpen w).
  - left. by destruct (isOpen w).
  - destruct (isOpen w) eqn:Hopen; [|by left].
    unfold handleKeyPress. case_decide; [|by left].
    destruct (Hsend _ eq_refl eq_refl); [by left | right; by left].
  - destruct (isOpen w) eqn:Hopen; [|by left].
    destruct (Hsend _ eq_refl eq_refl); [by left | right; by left].
  - destruct (inflight w !! k) as [[um|]|] eqn:Hk; [| |by left].
    + right; right; left. by exists k, um, r.
    + right; right; right. by exists k, r.
Qed.

(** Every state reached from the mounted one satisfies what the mounted
    state satisfies and every transition keeps. *)
Lemma invariant_run (P : Widget -> Prop) :
  P init -> (forall w e, P w -> P (step w e)) ->
  forall evs, P (run evs init).
Proof.
  intros Hinit Hstep evs. generalize init Hinit.
  induction evs as [|e evs IH]; intros w Hw; [done|].
  rewrite run_cons. by apply IH, Hstep.
Qed.

(** ** The ledger is kept *)

Section Ledger.

Implicit Types (w : Widget) (e : Event) (r : settled).

Lemma isChat_chatRequest (question : value) :
  isChat (chatRequest question) = true /\ isProbe (chatRequest question) = false.
Proof. by destruct question. Qed.

Lemma count_botTurn r :
  count isBotTurn (option_list (botTurn r))
  = match botTurn r with Some _ => 1 | None => 0 end
  /\ count isUserTurn (option_list (botTurn r)) = 0.
Proof.
  destruct (botTurn r) as [b|] eqn:Hb; [|done].
  apply sender_botTurn in Hb.
  unfold count, isBotTurn, isUserTurn. simpl. by rewrite Hb.
Qed.

Lemma ledger_init : ledger init.
Proof.
  split; simpl.
  - reflexivity.
  - unfold count; simpl; lia.
  - discriminate.
  - constructor.
  - constructor; [by left | constructor].
Qed.

Lemma ledger_submit w :
  not_string (trim (inputValue w)) = false ->
  ledger w -> ledger (handleSendMessage w).
Proof.
  intros Hd [Hu Hp Hl Hs Ht].
  rewrite (handleSendMessage_sends _ Hd).
  destruct (isChat_chatRequest (Val (JString (inputValue w)))) as [Hc Hnp].
  apply nonblank_iff in Hd.
  split; simpl; rewrite ?count_snoc, ?Hc, ?Hnp; simpl.
  - lia.
  - lia.
  - intros _. lia.
  - apply Forall_app. split; [done|]. constructor; [|done].
    right. by exists (inputValue w).
  - apply Forall_app. split; [done|]. constructor; [|done].
    right. by exists (inputValue w).
Qed.

Lemma ledger_settle_answer w k um r :
  inflight w !! k = Some (AwaitAnswer um) ->
  ledger w -> ledger (resume r (retire k w)).
Proof.
  intros Hk [Hu Hp Hl Hs Ht].
  pose proof (count_delete isAwaitAnswer _ _ _ Hk) as Hdel. simpl in Hdel.
  destruct (count_botTurn r) as [_ Hnu].
  split.
  - rewrite resume_messages, resume_sent. simpl. rewrite !count_app, Hnu.
    destruct (readBody r); unfold count in *; simpl; lia.
  - rewrite resume_sent, resume_inflight. simpl. rewrite !count_app.
    destruct (readBody r); unfold count in *; simpl; lia.
  - intros Hload. by rewrite (proj1 (resume_frame r (retire k w))) in Hload.
  - rewrite resume_sent. simpl. apply Forall_app. split; [done|].
    destruct (readBody r); repeat constructor.
  - rewrite resume_messages. simpl. apply Forall_app. split; [done|].
    destruct (botTurn r) as [b|] eqn:Hb; [|constructor].
    constructor; [|constructor]. left. by apply sender_botTurn in Hb.
Qed.

Lemma ledger_settle_unobserved w k :
  inflight w !! k = Some Unobserved ->
  ledger w -> ledger (retire k w).
Proof.
  intros Hk [Hu Hp Hl Hs Ht].
  pose proof (count_delete isAwaitAnswer _ _ _ Hk) as Hdel. simpl in Hdel.
  split; simpl; try done.
  - lia.
  - intros Hload. apply Hl in Hload. lia.
Qed.

Lemma ledger_step w e : ledger w -> ledger (step w e).
Proof.
  intros Hw.
  destruct (step_cases w e)
    as [(Hm & Hf & Hs & Hl) | [(_ & Hd & ->) | [(k & um & r & _ & Hk & ->)
       | (k & r & _ & Hk & ->)]]].
  - destruct Hw as [Hu Hp Hld Hsd Ht].
    split; rewrite ?Hm, ?Hf, ?Hs, ?Hl; done.
  - by apply ledger_submit.
  - by eapply ledger_settle_answer.
  - by apply ledger_settle_unobserved.
Qed.

Lemma ledger_run (evs : list Event) : ledger (run evs init).
Proof. apply invariant_run; [apply ledger_init | apply ledger_step]. Qed.

End Ledger.

(** ** Requests and turns stay in step *)

(** X1: in every state reached from mount, the number of chat requests
    sent equals the number of user turns: each submission is sent once,
    and nothing is ever re-sent. *)
Theorem X1_one_chat_request_per_user_turn (evs : list Event) :
  count isChat (sent (run evs init))
  = count isUserTurn (messages (run evs init)).
Proof. symmetry. apply ledger_users, ledger_run. Qed.

Lemma balanced_step (w : Widget) (e : Event) :
  updaterThrows w e = false -> balanced w -> balanced (step w e).
Proof.
  unfold balanced. intros Hthrow Hw.
  destruct (step_cases w e)
    as [(Hm & Hf & _ & _) | [(_ & Hd & ->) | [(k & um & r & -> & Hk & ->)
       | (k & r & _ & Hk & ->)]]].
  - by rewrite Hm, Hf.
  - rewrite (handleSendMessage_sends _ Hd). simpl.
    rewrite !count_snoc. simpl. lia.
  - apply (updaterThrows_settle _ _ _ _ Hk) in Hthrow as [b Hb].
    pose proof (count_delete isAwaitAnswer _ _ _ Hk) as Hdel.
    destruct (count_botTurn r) as [Hbots Husers]. rewrite Hb in Hbots.
    rewrite resume_messages, resume_inflight.
    rewrite !count_app, Husers, Hb, Hbots.
    change (messages (retire k w)) with (messages w).
    change (inflight (retire k w)) with (delete k (inflight w)).
    simpl in Hdel.
    destruct (readBody r); unfold count in *; simpl; lia.
  - pose proof (count_delete isAwaitAnswer _ _ _ Hk) as Hdel.
    simpl in *. lia.
Qed.

Lemma balanced_survives (evs : list Event) (w : Widget) :
  survives evs w = true -> balanced w -> balanced (run evs w).
Proof.
  revert w. induction evs as [|e evs IH]; intros w Halive Hw; [done|].
  simpl in Halive. apply andb_true_iff in Halive as [He Halive].
  apply negb_true_iff, unmounts_false in He as [He _].
  rewrite run_cons. by apply IH, balanced_step.
Qed.

(** X2: in every state reached from mount through events none of which
    unmounts the component, the bot turns are the greeting plus one turn
    for each submission whose request has settled: bot turns and
    requests still awaited together number one more than the user
    turns. *)
Theorem X2_one_bot_turn_per_settled_request (evs : list Event) :
  survives evs init = true ->
  count isBotTurn (messages (run evs init))
  + count isAwaitAnswer (inflight (run evs init))
  = 1 + count isUserTurn (messages (run evs init)).
Proof.
  intros Halive. by apply (balanced_survives evs init Halive).
Qed.

Lemma X2_one_bot_turn_per_settled_request_witness :
  survives [ClickChatBtn; Change (lit "a"); ClickSend; Change (lit "b");
            KeyPress (lit "Enter"); Settle 1 Rejects;
            Settle 0 (answers 200 (lit "A") [])] init = true
  /\ count isBotTurn
       (messages (run [ClickChatBtn; Change (lit "a"); ClickSend;
                       Change (lit "b"); KeyPress (lit "Enter");
                       Settle 1 Rejects;
                       Settle 0 (answers 200 (lit "A") [])] init))
     + count isAwaitAnswer
         (inflight (run [ClickChatBtn; Change (lit "a"); ClickSend;
                         Change (lit "b"); KeyPress (lit "Enter");
                         Settle 1 Rejects;
                         Settle 0 (answers 200 (lit "A") [])] init))
     = 1 + count isUserTurn
             (messages (run [ClickChatBtn; Change (lit "a"); ClickSend;
                             Change (lit "b"); KeyPress (lit "Enter");
                             Settle 1 Rejects;
                             Settle 0 (answers 200 (lit "A") [])] init)).
Proof.
  split; [reflexivity|].
  apply (X2_one_bot_turn_per_settled_request
           [ClickChatBtn; Change (lit "a"); ClickSend; Change (lit "b");
            KeyPress (lit "Enter"); Settle 1 Rejects;
            Settle 0 (answers 200 (lit "A") [])]).
  reflexivity.
Defined.

(** X3: in every state reached from mount, health probes sent plus chat
    requests still awaited never exceed the chat requests sent: a probe
    goes out at most once per request, and only after it settled. *)
Theorem X3_at_most_one_probe_per_settled_request (evs : list Event) :
  count isProbe (sent (run evs init))
  + count isAwaitAnswer (inflight (run evs init))
  <= count isChat (sent (run evs init)).
Proof. apply ledger_probes, ledger_run. Qed.

Lemma count_pos_lookup {A : Type} (p : A -> bool) (l : list A) :
  0 < count p l -> exists k x, l !! k = Some x /\ p x = true.
Proof.
  unfold count. induction l as [|y l IH]; simpl; [lia|].
  destruct (p y) eqn:Hy.
  - intros _. by exists 0, y.
  - intros Hpos. destruct (IH Hpos) as (k & x & Hk & Hx).
    by exists (S k), x.
Qed.

(** X4: in every state reached from mount, a set loading flag means a
    suspended [handleSendMessage] is waiting on its request: the
    ["Thinking..."] row is never shown with nothing in flight. *)
Theorem X4_loading_means_request_in_flight (evs : list Event) :
  isLoading (run evs init) = true ->
  exists k um, inflight (run evs init) !! k = Some (AwaitAnswer um).
Proof.
  intros Hload. apply (ledger_loading _ (ledger_run evs)) in Hload.
  apply count_pos_lookup in Hload as (k & [um|] & Hk & Hp); [|done].
  by exists k, um.
Qed.

Lemma X4_loading_means_request_in_flight_witness :
  isLoading (run [ClickChatBtn; Change (lit "hi"); ClickSend] init) = true
  /\ exists k um,
       inflight (run [ClickChatBtn; Change (lit "hi"); ClickSend] init) !! k
       = Some (AwaitAnswer um).
Proof.
  split; [reflexivity|].
  apply (X4_loading_means_request_in_flight
           [ClickChatBtn; Change (lit "hi"); ClickSend]).
  reflexivity.
Defined.

(** X5: the converse fails by design of [finally]: with two requests in
    flight, the first one to settle clears the loading flag although the
    other is still awaited. *)
Theorem X5_first_settle_clears_loading (w : Widget) (k k' : nat)
  (um um' : ChatTurn) (r : settled) :
  inflight w !! k = Some (AwaitAnswer um) ->
  inflight w !! k' = Some (AwaitAnswer um') ->
  k <> k' ->
  isLoading (step w (Settle k r)) = false
  /\ AwaitAnswer um' ∈ inflight (step w (Settle k r)).
Proof.
  intros Hk Hk' Hne.
  rewrite (step_settle_answer _ _ _ _ Hk).
  split; [apply resume_frame|].
  rewrite resume_inflight. simpl. apply elem_of_app. left.
  apply list_elem_of_lookup.
  destruct (decide (k' < k)) as [Hlt | Hge].
  - exists k'. by rewrite list_lookup_delete_lt.
  - exists (pred k'). rewrite list_lookup_delete_ge by lia.
    by replace (S (pred k')) with k' by lia.
Qed.

Lemma X5_first_settle_clears_loading_witness :
  inflight (askedTwice (lit "a") (lit "b")) !! 0%nat
  = Some (AwaitAnswer (userTurn (lit "a")))
  /\ isLoading (askedTwice (lit "a") (lit "b")) = true
  /\ isLoading (step (askedTwice (lit "a") (lit "b")) (Settle 0 Rejects))
     = false
  /\ AwaitAnswer (userTurn (lit "b"))
     ∈ inflight (step (askedTwice (lit "a") (lit "b")) (Settle 0 Rejects)).
Proof.
  split; [reflexivity|]. split; [reflexivity|].
  apply (X5_first_settle_clears_loading (askedTwice (lit "a") (lit "b"))
           0 1 (userTurn (lit "a")) (userTurn (lit "b")) Rejects);
    [reflexivity | reflexivity | lia].
Defined.

(** X6: in every state reached from mount, every request sent is either
    the health probe or the chat POST whose body is [{question: q}] for a
    string [q] with a code unit that is not whitespace: a blank question
    never reaches the network. *)
Theorem X6_no_blank_question_is_sent (evs : list Event) :
  Forall (fun req =>
            req = healthRequest
            \/ exists q, nonblank q
                 /\ req = chatRequest (Val (JString q))
                 /\ body req = Some (JObject [(lit "question", JString q)]))
         (sent (run evs init)).
Proof.
  eapply List.Forall_impl; [|exact (ledger_sent _ (ledger_run evs))].
  intros req [-> | (q & Hq & ->)]; [by left|].
  right. by exists q.
Qed.

(** X7: in every state reached from mount, every user turn holds a
    string with a code unit that is not whitespace; any turn that is not
    such a user turn is a bot turn. *)
Theorem X7_user_turns_hold_nonblank_strings (evs : list Event) :
  Forall (fun t =>
            sender t = bot
            \/ exists q, nonblank q
                 /\ text t = Val (JString q) /\ sender t = user)
         (messages (run evs init)).
Proof.
  eapply List.Forall_impl; [|exact (ledger_turns _ (ledger_run evs))].
  intros t [Hbot | (q & Hq & ->)]; [by left|].
  right. by exists q.
Qed.

(** ** Overlapping requests *)

Lemma retire_messages (k : nat) (w : Widget) :
  messages (retire k w) = messages w.
Proof. reflexivity. Qed.

(** X8: bot turns are appended in the order the requests settle, not in
    the order the questions were asked. With two requests in flight, the
    one asked first at [k1] and the other at [k2], when the later one
    settles first and neither settling unmounts the component, its bot
    turn comes before the bot turn of the earlier one; when they settle
    in the order asked, the bot turns come the other way round. *)
Theorem X8_bot_turns_follow_settle_order (w : Widget) (k1 k2 : nat)
  (u1 u2 : ChatTurn) (r1 r2 : settled) :
  inflight w !! k1 = Some (AwaitAnswer u1) ->
  inflight w !! k2 = Some (AwaitAnswer u2) ->
  k1 < k2 ->
  (unmounts w (Settle k2 r2) = false ->
   unmounts (step w (Settle k2 r2)) (Settle k1 r1) = false ->
   exists b1 b2,
     botTurn r1 = Some b1 /\ botTurn r2 = Some b2
     /\ messages (step (step w (Settle k2 r2)) (Settle k1 r1))
        = messages w ++ [b2; b1])
  /\ (unmounts w (Settle k1 r1) = false ->
      unmounts (step w (Settle k1 r1)) (Settle (pred k2) r2) = false ->
      exists b1 b2,
        botTurn r1 = Some b1 /\ botTurn r2 = Some b2
        /\ messages (step (step w (Settle k1 r1)) (Settle (pred k2) r2))
           = messages w ++ [b1; b2]).
Proof.
  intros Hk1 Hk2 Hlt.
  assert (inflight (step w (Settle k2 r2)) !! k1 = Some (AwaitAnswer u1))
    as Hk1'.
  { rewrite (step_settle_answer _ _ _ _ Hk2), resume_inflight. simpl.
    apply lookup_app_l_Some. by rewrite list_lookup_delete_lt. }
  assert (inflight (step w (Settle k1 r1)) !! pred k2
          = Some (AwaitAnswer u2)) as Hk2'.
  { rewrite (step_settle_answer _ _ _ _ Hk1), resume_inflight. simpl.
    apply lookup_app_l_Some. rewrite list_lookup_delete_ge by lia.
    by replace (S (pred k2)) with k2 by lia. }
  split; intros Ha Hb.
  - apply unmounts_false in Ha as [Ha _]. apply unmounts_false in Hb as [Hb _].
    apply (updaterThrows_settle _ _ _ _ Hk2) in Ha as [b2 Hb2].
    apply (updaterThrows_settle _ _ _ _ Hk1') in Hb as [b1 Hb1].
    exists b1, b2. split; [done|]. split; [done|].
    rewrite (step_settle_answer _ _ _ _ Hk1'), resume_messages,
      retire_messages.
    rewrite (step_settle_answer _ _ _ _ Hk2), resume_messages,
      retire_messages.
    rewrite Hb1, Hb2. simpl. by rewrite <- app_assoc.
  - apply unmounts_false in Ha as [Ha _]. apply unmounts_false in Hb as [Hb _].
    apply (updaterThrows_settle _ _ _ _ Hk1) in Ha as [b1 Hb1].
    apply (updaterThrows_settle _ _ _ _ Hk2') in Hb as [b2 Hb2].
    exists b1, b2. split; [done|]. split; [done|].
    rewrite (step_settle_answer _ _ _ _ Hk2'), resume_messages,
      retire_messages.
    rewrite (step_settle_answer _ _ _ _ Hk1), resume_messages,
      retire_messages.
    rewrite Hb1, Hb2. simpl. by rewrite <- app_assoc.
Qed.

Lemma X8_bot_turns_follow_settle_order_witness :
  inflight (askedTwice (lit "a") (lit "b")) !! 1%nat
  = Some (AwaitAnswer (userTurn (lit "b")))
  /\ unmounts (askedTwice (lit "a") (lit "b"))
              (Settle 1 (answers 200 (lit "B") [])) = false
  /\ unmounts (step (askedTwice (lit "a") (lit "b"))
                    (Settle 1 (answers 200 (lit "B") [])))
              (Settle 0 (answers 200 (lit "A") [])) = false
  /\ exists b1 b2,
       botTurn (answers 200 (lit "A") []) = Some b1
       /\ botTurn (answers 200 (lit "B") []) = Some b2
       /\ messages (step (step (askedTwice (lit "a") (lit "b"))
                               (Settle 1 (answers 200 (lit "B") [])))
                         (Settle 0 (answers 200 (lit "A") [])))
          = messages (askedTwice (lit "a") (lit "b")) ++ [b2; b1].
Proof.
  split; [reflexivity|]. split; [reflexivity|]. split; [reflexivity|].
  destruct (X8_bot_turns_follow_settle_order
              (askedTwice (lit "a") (lit "b")) 0 1
              (userTurn (lit "a")) (userTurn (lit "b"))
              (answers 200 (lit "A") []) (answers 200 (lit "B") []))
    as [Hm _]; [reflexivity | reflexivity | lia |].
  apply Hm; reflexivity.
Defined.

(** ** What settling and toggling leave alone *)



Lemma closed_step (w : Widget) (e : Event) :
  isOpen w = false -> e <> ClickChatBtn ->
  isOpen (step w e) = false
  /\ inputValue (step w e) = inputValue w
  /\ count isUserTurn (messages (step w e)) = count isUserTurn (messages w)
  /\ count isChat (sent (step w e)) = count isChat (sent w).
Proof.
  intros Hclosed He.
  destruct e; simpl; rewrite ?Hclosed; try done.
  destruct (inflight w !! k) as [[um|]|]; try done.
  rewrite resume_messages, resume_sent.
  destruct (resume_frame r (retire k w)) as (_ & -> & ->).
  rewrite !count_app. destruct (count_botTurn r) as [_ ->].
  simpl. rewrite Hclosed.
  split; [done|]. split; [done|]. split; [lia|].
  destruct (readBody r); unfold count; simpl; lia.
Qed.

(** X11: while the panel is closed and the floating button is not
    clicked, nothing the page can deliver changes the draft, adds a user
    turn or sends a chat request; the panel stays closed and no chat box
    is rendered. Only bot turns of requests already in flight arrive. *)
Theorem X11_closed_panel_sends_nothing (evs : list Event) (w : Widget) :
  isOpen w = false ->
  ClickChatBtn ∉ evs ->
  isOpen (run evs w) = false
  /\ inputValue (run evs w) = inputValue w
  /\ count isUserTurn (messages (run evs w)) = count isUserTurn (messages w)
  /\ count isChat (sent (run evs w)) = count isChat (sent w)
  /\ chatBox (render (run evs w)) = None.
Proof.
  intros Hclosed Hevs.
  assert (isOpen (run evs w) = false
          /\ inputValue (run evs w) = inputValue w
          /\ count isUserTurn (messages (run evs w))
             = count isUserTurn (messages w)
          /\ count isChat (sent (run evs w)) = count isChat (sent w))
    as (Ho & Hi & Hu & Hc).
  { revert w Hclosed. induction evs as [|e evs IH]; intros w Hclosed; [done|].
    apply not_elem_of_cons in Hevs as [He Hevs].
    destruct (closed_step w e Hclosed) as (Ho & Hi & Hu & Hc); [done|].
    rewrite run_cons. destruct (IH Hevs _ Ho) as (? & ? & ? & ?).
    repeat split; congruence. }
  repeat split; try done. unfold render. simpl. by rewrite Ho.
Qed.

Lemma X11_closed_panel_sends_nothing_witness :
  isOpen init = false
  /\ inputValue (run [Change (lit "hi"); ClickSend; KeyPress (lit "Enter");
                      ClickCloseBtn] init) = []
  /\ count isChat (sent (run [Change (lit "hi"); ClickSend;
                              KeyPress (lit "Enter"); ClickCloseBtn] init))
     = 0.
Proof.
  split; [reflexivity|].
  destruct (X11_closed_panel_sends_nothing
              [Change (lit "hi"); ClickSend; KeyPress (lit "Enter");
               ClickCloseBtn] init) as (_ & Hi & _ & Hc & _);
    [reflexivity | | split; [exact Hi | exact Hc]].
  repeat (apply not_elem_of_cons; split; [discriminate|]).
  apply not_elem_of_nil.
Defined.

(** ** Keys and repeated submits *)

(** X12: in every state the Enter key in the input does exactly what a
    click on Send does, and any other key, ["enter"] in lower case
    included, changes nothing. *)
Theorem X12_enter_is_send_other_keys_nothing (w : Widget) (key : jsstring) :
  step w (KeyPress key)
  = if decide (key = lit "Enter") then step w ClickSend else w.
Proof.
  simpl. unfold handleKeyPress.
  destruct (isOpen w); by case_decide.
Qed.

Lemma step_submit_closed (w : Widget) (e : Event) :
  isOpen w = false -> submits e -> step w e = w.
Proof. intros Hclosed [-> | ->]; simpl; by rewrite Hclosed. Qed.

(** X13: a submit that follows a submit at once changes nothing more,
    because the first one emptied the draft: a double click on Send, or
    Enter followed by a click, posts the question once. *)
Theorem X13_repeated_submit_posts_once (w : Widget) (e1 e2 : Event) :
  submits e1 -> submits e2 ->
  step (step w e1) e2 = step w e1.
Proof.
  intros He1 He2. destruct (isOpen w) eqn:Hopen.
  - rewrite (step_submit _ _ Hopen He1).
    destruct (not_string (trim (inputValue w))) eqn:Hd.
    + rewrite (handleSendMessage_blank _ Hd), (step_submit _ _ Hopen He2).
      by apply handleSendMessage_blank.
    + rewrite (handleSendMessage_sends _ Hd).
      rewrite step_submit; [|done..].
      by apply handleSendMessage_blank.
  - rewrite (step_submit_closed _ _ Hopen He1).
    by apply step_submit_closed.
Qed.

Lemma X13_repeated_submit_posts_once_witness :
  messages (step (step (typed (lit "hi")) (KeyPress (lit "Enter"))) ClickSend)
  = [greeting; userTurn (lit "hi")]
  /\ step (step (typed (lit "hi")) (KeyPress (lit "Enter"))) ClickSend
     = step (typed (lit "hi")) (KeyPress (lit "Enter")).
Proof.
  split; [reflexivity|].
  apply (X13_repeated_submit_posts_once (typed (lit "hi"))
           (KeyPress (lit "Enter")) ClickSend); [by right | by left].
Defined.

(** ** The answered path *)

(** X14: when the response body parses to anything but [null], the
    outcome does not depend on the status code: one bot turn is appended
    whose text is the body's [answer] property, [undefined] when the
    body is an object without it or is not an object at all; no probe is
    sent and the loading flag is cleared. *)
Theorem X14_parsed_body_is_shown_as_answer (w : Widget) (k : nat)
  (um : ChatTurn) (st : Z) (data : json) :
  inflight w !! k = Some (AwaitAnswer um) ->
  data <> JNull ->
  messages (step w (Settle k (Responds {| status := st;
                                           payload := Some data |})))
  = messages w
    ++ [{| text := match data with
                   | JObject props => getOwn props (lit "answer")
                   | _ => Undefined
                   end;
           sender := bot |}]
  /\ sent (step w (Settle k (Responds {| status := st;
                                          payload := Some data |})))
     = sent w
  /\ inflight (step w (Settle k (Responds {| status := st;
                                              payload := Some data |})))
     = delete k (inflight w)
  /\ isLoading (step w (Settle k (Responds {| status := st;
                                               payload := Some data |})))
     = false.
Proof.
  intros Hk Hdata. rewrite (step_settle_answer _ _ _ _ Hk).
  rewrite resume_messages, resume_sent, resume_inflight.
  split; [|split; [|split]].
  - unfold botTurn, readBody. simpl. by destruct data.
  - unfold readBody. simpl. by rewrite app_nil_r.
  - unfold readBody. simpl. by rewrite app_nil_r.
  - apply resume_frame.
Qed.

Lemma X14_parsed_body_is_shown_as_answer_witness :
  inflight (asked (lit "hi")) !! 0%nat = Some (AwaitAnswer (userTurn (lit "hi")))
  /\ messages (step (asked (lit "hi"))
                 (Settle 0 (Responds {| status := 404;
                                        payload := Some (JArray []) |})))
     = [greeting; userTurn (lit "hi"); {| text := Undefined; sender := bot |}].
Proof.
  split; [reflexivity|].
  destruct (X14_parsed_body_is_shown_as_answer (asked (lit "hi")) 0
              (userTurn (lit "hi")) 404 (JArray []))
    as [Hm _]; [reflexivity | discriminate |].
  exact Hm.
Defined.

(** ** Rendering *)



(** ** Responses that unmount the component *)

(** X16: a response whose body is the JSON value [null] does not reach
    [catch]: [response.json()] resolves, the [try] block ends normally
    and the updater throws on [data.answer] when React runs it. No
    fallback turn is appended, no probe is sent, and the component is
    unmounted, whatever the status code and whether the panel is open or
    closed. *)
Theorem X16_null_body_unmounts (w : Widget) (k : nat) (um : ChatTurn)
  (st : Z) :
  inflight w !! k = Some (AwaitAnswer um) ->
  readBody (nullBody st) = Normal JNull
  /\ answerUpdater JNull (messages w) = Throw
  /\ botTurn (nullBody st) = None
  /\ unmounts w (Settle k (nullBody st)) = true
  /\ messages (step w (Settle k (nullBody st))) = messages w
  /\ sent (step w (Settle k (nullBody st))) = sent w.
Proof.
  intros Hk. rewrite (step_settle_answer _ _ _ _ Hk).
  rewrite resume_messages, resume_sent.
  unfold unmounts, updaterThrows. rewrite Hk. simpl.
  repeat split; by rewrite app_nil_r.
Qed.

Lemma X16_null_body_unmounts_witness :
  inflight (asked (lit "hi")) !! 0%nat = Some (AwaitAnswer (userTurn (lit "hi")))
  /\ unmounts (asked (lit "hi")) (Settle 0 (nullBody 200)) = true
  /\ sent (step (asked (lit "hi")) (Settle 0 (nullBody 200)))
     = [chatRequest (Val (JString (lit "hi")))].
Proof.
  split; [reflexivity|].
  destruct (X16_null_body_unmounts (asked (lit "hi")) 0
              (userTurn (lit "hi")) 200)
    as (_ & _ & _ & Hu & _ & Hs); [reflexivity|].
  split; [exact Hu | exact Hs].
Defined.

(** X17: a response whose [answer] is an object takes the answered
    path, and the turn holding the object is one React cannot show. With
    the panel open the settling unmounts the component. With the panel
    closed the turn is appended and the component stays mounted, and the
    next click on the floating button unmounts it. *)
Theorem X17_object_answer_unmounts_when_shown (w : Widget) (k : nat)
  (um : ChatTurn) (st : Z) (props fields : list (jsstring * json)) :
  inflight w !! k = Some (AwaitAnswer um) ->
  getOwn props (lit "answer") = Val (JObject fields) ->
  messages (step w (Settle k (Responds {| status := st;
                                           payload := Some (JObject props) |})))
  = messages w ++ [{| text := Val (JObject fields); sender := bot |}]
  /\ unmounts w (Settle k (Responds {| status := st;
                                       payload := Some (JObject props) |}))
     = isOpen w
  /\ unmounts
       (step w (Settle k (Responds {| status := st;
                                      payload := Some (JObject props) |})))
       ClickChatBtn
     = negb (isOpen w).
Proof.
  intros Hk Hanswer.
  assert (botTurn (Responds {| status := st;
                               payload := Some (JObject props) |})
          = Some {| text := Val (JObject fields); sender := bot |}) as Hb.
  { unfold botTurn, readBody. simpl. by rewrite Hanswer. }
  assert (updaterThrows w (Settle k (Responds {| status := st;
                                    payload := Some (JObject props) |}))
          = false) as Hthrow.
  { apply (updaterThrows_settle _ _ _ _ Hk). by rewrite Hb. }
  unfold unmounts at 1. rewrite Hthrow.
  rewrite (step_settle_answer _ _ _ _ Hk).
  pose proof (resume_messages
                (Responds {| status := st; payload := Some (JObject props) |})
                (retire k w)) as Hm.
  rewrite Hb in Hm.
  change (messages (retire k w) ++ option_list (Some _))
    with (messages w ++ [{| text := Val (JObject fields); sender := bot |}])
    in Hm.
  pose proof (resume_frame
                (Responds {| status := st; payload := Some (JObject props) |})
                (retire k w)) as (_ & _ & Ho).
  change (isOpen (retire k w)) with (isOpen w) in Ho.
  generalize dependent
    (resume (Responds {| status := st; payload := Some (JObject props) |})
            (retire k w)).
  intros w' Hm Ho.
  assert (forallb (fun t => validChild (text t)) (messages w') = false)
    as Hbad.
  { rewrite Hm, forallb_app. simpl. by rewrite andb_false_r. }
  split; [done|]. split.
  - rewrite orb_false_l. destruct (isOpen w) eqn:Hopen.
    + by rewrite (reconciles_open _ Ho), Hbad.
    + by rewrite (reconciles_closed _ Ho).
  - unfold unmounts.
    change (updaterThrows w' ClickChatBtn) with false.
    change (step w' ClickChatBtn) with (setIsOpen (negb (isOpen w')) w').
    rewrite orb_false_l, Ho. destruct (isOpen w) eqn:Hopen; cbn [negb].
    + by rewrite (reconciles_closed (setIsOpen false w') eq_refl).
    + rewrite (reconciles_open (setIsOpen true w') eq_refl).
      change (messages (setIsOpen true w')) with (messages w').
      by rewrite Hbad.
Qed.

Lemma X17_object_answer_unmounts_when_shown_witness :
  inflight (asked (lit "hi")) !! 0%nat = Some (AwaitAnswer (userTurn (lit "hi")))
  /\ unmounts (asked (lit "hi")) (Settle 0 (answersObject 200)) = true
  /\ unmounts (step (asked (lit "hi")) ClickCloseBtn)
              (Settle 0 (answersObject 200)) = false.
Proof.
  split; [reflexivity|].
  destruct (X17_object_answer_unmounts_when_shown (asked (lit "hi")) 0
              (userTurn (lit "hi")) 200
              [(lit "answer", JObject [(lit "text", JString (lit "hello"))])]
              [(lit "text", JString (lit "hello"))])
    as (_ & Hopen & _); [reflexivity | reflexivity |].
  destruct (X17_object_answer_unmounts_when_shown
              (step (asked (lit "hi")) ClickCloseBtn) 0
              (userTurn (lit "hi")) 200
              [(lit "answer", JObject [(lit "text", JString (lit "hello"))])]
              [(lit "text", JString (lit "hello"))])
    as (_ & Hclosed & _); [reflexivity | reflexivity |].
  split; [exact Hopen | exact Hclosed].
Defined.
